(** * esp32s3_reset: hardware reset of an ESP32S3 through the RTS/DTR lines

    A shallow embedding of [src/esp32s3_reset.c].  The program is one
    function, [main], a straight line of system calls.  It is modelled in
    a small state monad over the state of the host and the log of the
    calls that were made; the host (the constants of <sys/ioctl.h> and
    the behaviour of the kernel) is a record, so every theorem holds for
    every serial driver, well behaved or not. *)

From Stdlib Require Import ZArith List String Ascii Bool Lia.
Import ListNotations.

Open Scope string_scope.
Open Scope list_scope.
Open Scope Z_scope.

(** ** C strings and [strcmp] *)

(** The byte a C string starts with; the terminating NUL when it is empty. *)
Definition first_byte (s : string) : Z :=
  match s with
  | EmptyString => 0
  | String c _ => Z.of_N (N_of_ascii c)
  end.

Definition rest_bytes (s : string) : string :=
  match s with
  | EmptyString => EmptyString
  | String _ t => t
  end.

(** [strcmp] of <string.h>: the bytes are compared as unsigned char up to
    the first difference or the first NUL; the result is the difference of
    the two bytes met there. *)
Fixpoint strcmp (s1 s2 : string) : Z :=
  match s1 with
  | EmptyString => 0 - first_byte s2
  | String c t =>
      let c1 := Z.of_N (N_of_ascii c) in
      let c2 := first_byte s2 in
      if c1 =? 0 then c1 - c2
      else if c1 =? c2 then strcmp t (rest_bytes s2)
      else c1 - c2
  end.

(** An element of [argv] is NUL-terminated: it holds no NUL byte itself. *)
Fixpoint c_string (s : string) : Prop :=
  match s with
  | EmptyString => True
  | String c t => N_of_ascii c <> 0%N /\ c_string t
  end.

(** The line feed the format strings end with. *)
Definition LF : string := String (ascii_of_nat 10) EmptyString.

(** ** The C [int] *)

Definition INT_MIN : Z := - 2 ^ 31.
Definition INT_MAX : Z := 2 ^ 31 - 1.
Definition in_int (z : Z) : Prop := INT_MIN <= z <= INT_MAX.

(** ** The host: <fcntl.h>, <sys/ioctl.h> and the kernel behind them *)

Inductive oflag : Type := O_RDWR | O_NOCTTY.

(** One entry of the log of a run: what the program asked for and what it
    got back.  The log keeps the calls in program order; when stdio hands
    the text of a [printf] to the terminal is not modelled. *)
Inductive event : Type :=
| EvPrintf (text : string)                       (* printf: text for stdout *)
| EvPerror (text : string)                       (* perror: text for stderr *)
| EvOpen (path : string) (flags : list oflag) (ret : Z)
| EvIoctlGet (fd : Z) (got : option Z)           (* ioctl(fd, TIOCMGET, &status) *)
| EvIoctlSet (fd : Z) (word : Z) (ret : Z)       (* ioctl(fd, TIOCMSET, &status) *)
| EvUsleep (usec : Z)
| EvClose (fd : Z).

(** What the program is compiled and run against.  [W] is the state of the
    world outside the process.  The two masks come from <sys/ioctl.h>, which
    is no part of the repository: they are fields of the host (Linux has
    0x002 and 0x004).

    - [sys_open] returns the descriptor, negative when the open fails;
    - [sys_strerror] is the text of [strerror(errno)];
    - [sys_tiocmget] is [Some v] when the kernel stored [v] in [status],
      [None] when the call failed and left [status] as it was;
    - [sys_tiocmset] returns the call's return code. *)
Record Host (W : Type) : Type := {
  TIOCM_DTR : Z;
  TIOCM_RTS : Z;
  sys_open : string -> list oflag -> W -> Z * W;
  sys_strerror : W -> string;
  sys_tiocmget : Z -> W -> option Z * W;
  sys_tiocmset : Z -> Z -> W -> Z * W;
  sys_usleep : Z -> W -> W;
  sys_close : Z -> W -> W
}.

Arguments TIOCM_DTR {W} _.
Arguments TIOCM_RTS {W} _.
Arguments sys_open {W} _ _ _ _.
Arguments sys_strerror {W} _ _.
Arguments sys_tiocmget {W} _ _ _.
Arguments sys_tiocmset {W} _ _ _ _.
Arguments sys_usleep {W} _ _ _.
Arguments sys_close {W} _ _ _.

(** ** The process: a state monad over the world and the log *)

Record proc (W : Type) : Type := {
  world : W;
  trace : list event
}.

Arguments world {W} _.
Arguments trace {W} _.

Definition M (W A : Type) : Type := proc W -> A * proc W.

Definition ret {W A : Type} (a : A) : M W A := fun s => (a, s).

Definition bind {W A B : Type} (c : M W A) (k : A -> M W B) : M W B :=
  fun s => let (a, s') := c s in k a s'.

Notation "x <- c1 ;; c2" := (bind c1 (fun x => c2))
  (at level 61, c1 at next level, right associativity).
Notation "c1 ;; c2" := (bind c1 (fun _ => c2))
  (at level 61, right associativity).

(** What [status] holds after a TIOCMGET that returned [got]. *)
Definition stored (got : option Z) (status : Z) : Z :=
  match got with
  | Some v => v
  | None => status
  end.

(** A run starts with an empty log. *)
Definition boot {W : Type} (w : W) : proc W := {| world := w; trace := [] |}.

Section Program.

Variable W : Type.
Variable host : Host W.

Definition log (e : event) (w : W) : M W unit :=
  fun s => (tt, {| world := w; trace := trace s ++ [e] |}).

Definition printf (text : string) : M W unit :=
  fun s => log (EvPrintf text) (world s) s.

(** [perror(prefix)]: the prefix, a colon and the reason the host reports. *)
Definition perror (prefix : string) : M W unit :=
  fun s =>
    log (EvPerror (prefix ++ ": " ++ sys_strerror host (world s) ++ LF)%string)
        (world s) s.

Definition open (path : string) (flags : list oflag) : M W Z :=
  fun s =>
    let (fd, w) := sys_open host path flags (world s) in
    (_ <- log (EvOpen path flags fd) w ;; ret fd) s.

(** [ioctl(fd, TIOCMGET, &status)]: the value of [status] after the call. *)
Definition ioctl_TIOCMGET (fd : Z) (status : Z) : M W Z :=
  fun s =>
    let (got, w) := sys_tiocmget host fd (world s) in
    (_ <- log (EvIoctlGet fd got) w ;; ret (stored got status)) s.

(** [ioctl(fd, TIOCMSET, &status)]: the return code goes unread. *)
Definition ioctl_TIOCMSET (fd : Z) (status : Z) : M W unit :=
  fun s =>
    let (rc, w) := sys_tiocmset host fd status (world s) in
    log (EvIoctlSet fd status rc) w s.

Definition usleep (usec : Z) : M W unit :=
  fun s => log (EvUsleep usec) (sys_usleep host usec (world s)) s.

Definition close (fd : Z) : M W unit :=
  fun s => log (EvClose fd) (sys_close host fd (world s)) s.

(** [argv[i]]; past the end [argv] holds a null pointer, which glibc's
    [printf] shows as (null). *)
Definition arg (argv : list string) (i : nat) : string := nth i argv "(null)".

(** [main].  [status0] is the indeterminate value the automatic variable
    [status] holds before the first ioctl; [bootloader_mode], an int used
    as a flag, is a [bool]. *)
Definition main (argv : list string) (status0 : Z) : M W Z :=
  let argc := Z.of_nat (List.length argv) in
  if (argc <? 2) || (argc >? 3) then
    printf ("Usage: " ++ arg argv 0 ++ " <serial_device> [bootloader]" ++ LF)%string ;;
    printf ("Example: " ++ arg argv 0
            ++ " /dev/ttyCH343USB0          # Normal boot" ++ LF)%string ;;
    printf ("Example: " ++ arg argv 0
            ++ " /dev/ttyCH343USB0 bootloader # Bootloader mode" ++ LF)%string ;;
    ret (-1)
  else
    let bootloader_mode :=
      (* argv[2] is read when argc is 3 only; [strcmp] is pure *)
      (argc =? 3) && (strcmp (arg argv 2) "bootloader" =? 0) in
    fd <- open (arg argv 1) [O_RDWR; O_NOCTTY] ;;
    if fd <? 0 then
      perror "Failed to open serial device" ;;
      ret (-1)
    else
      printf (if bootloader_mode
              then "Resetting ESP32S3 into bootloader mode via RTS/DTR control..." ++ LF
              else "Resetting ESP32S3 into normal mode via RTS/DTR control..." ++ LF)%string ;;
      (* step 1 *)
      printf ("Step 1: Setting up reset sequence..." ++ LF)%string ;;
      status <- ioctl_TIOCMGET fd status0 ;;
      let status := Z.land status (Z.lnot (TIOCM_DTR host)) in
      let status :=
        if bootloader_mode
        then Z.lor status (TIOCM_RTS host)
        else Z.land status (Z.lnot (TIOCM_RTS host)) in
      ioctl_TIOCMSET fd status ;;
      usleep 50000 ;;
      (* step 2 *)
      printf ("Step 2: Pulling EN low to reset..." ++ LF)%string ;;
      status <- ioctl_TIOCMGET fd status ;;
      let status := Z.lor status (TIOCM_DTR host) in
      ioctl_TIOCMSET fd status ;;
      usleep 100000 ;;
      (* step 3 *)
      printf ("Step 3: Releasing EN to start..." ++ LF)%string ;;
      status <- ioctl_TIOCMGET fd status ;;
      let status := Z.land status (Z.lnot (TIOCM_DTR host)) in
      ioctl_TIOCMSET fd status ;;
      usleep 200000 ;;
      printf ("Reset sequence completed!" ++ LF)%string ;;
      printf (if bootloader_mode
              then "ESP32S3 should now be in bootloader mode for flashing." ++ LF
              else "ESP32S3 should now be running in normal mode." ++ LF)%string ;;
      close fd ;;
      ret 0.

(** *** What a run computes and logs

    The pieces of [main] by name, to state what a run does. *)

(** The flags [main] opens the device with. *)
Definition open_flags : list oflag := [O_RDWR; O_NOCTTY].

(** What [main] leaves in [bootloader_mode]. *)
Definition wants_bootloader (argv : list string) : bool :=
  (Z.of_nat (List.length argv) =? 3) && (strcmp (arg argv 2) "bootloader" =? 0).

(** The word each step hands to TIOCMSET, from the value of [status] after
    the step's TIOCMGET. *)
Definition step1_word (bootloader_mode : bool) (status : Z) : Z :=
  let status := Z.land status (Z.lnot (TIOCM_DTR host)) in
  if bootloader_mode
  then Z.lor status (TIOCM_RTS host)
  else Z.land status (Z.lnot (TIOCM_RTS host)).

Definition step2_word (status : Z) : Z := Z.lor status (TIOCM_DTR host).

Definition step3_word (status : Z) : Z :=
  Z.land status (Z.lnot (TIOCM_DTR host)).

(** The log of a run that got its device: [t1] to [t6] are the progress
    lines, [r1] to [r3] what the reads got, [c1] to [c3] the return codes
    of the writes. *)
Definition reset_log (path : string) (fd : Z) (bootloader_mode : bool)
  (status0 : Z) (t1 t2 t3 t4 t5 t6 : string) (r1 r2 r3 : option Z)
  (c1 c2 c3 : Z) : list event :=
  let w1 := step1_word bootloader_mode (stored r1 status0) in
  let w2 := step2_word (stored r2 w1) in
  let w3 := step3_word (stored r3 w2) in
  [ EvOpen path open_flags fd; EvPrintf t1;
    EvPrintf t2; EvIoctlGet fd r1; EvIoctlSet fd w1 c1; EvUsleep 50000;
    EvPrintf t3; EvIoctlGet fd r2; EvIoctlSet fd w2 c2; EvUsleep 100000;
    EvPrintf t4; EvIoctlGet fd r3; EvIoctlSet fd w3 c3; EvUsleep 200000;
    EvPrintf t5; EvPrintf t6; EvClose fd ].

(** The three lines of the usage message. *)
Definition usage_log (prog : string) : list event :=
  [ EvPrintf ("Usage: " ++ prog ++ " <serial_device> [bootloader]" ++ LF)%string;
    EvPrintf ("Example: " ++ prog
              ++ " /dev/ttyCH343USB0          # Normal boot" ++ LF)%string;
    EvPrintf ("Example: " ++ prog
              ++ " /dev/ttyCH343USB0 bootloader # Bootloader mode" ++ LF)%string ].

End Program.

Arguments log {W} e w _.
Arguments printf {W} text _.
Arguments perror {W} host prefix _.
Arguments open {W} host path flags _.
Arguments ioctl_TIOCMGET {W} host fd status _.
Arguments ioctl_TIOCMSET {W} host fd status _.
Arguments usleep {W} host usec _.
Arguments close {W} host fd _.
Arguments main {W} host argv status0 _.
Arguments step1_word {W} host bootloader_mode status.
Arguments step2_word {W} host status.
Arguments step3_word {W} host status.
Arguments reset_log {W} host path fd bootloader_mode status0
  t1 t2 t3 t4 t5 t6 r1 r2 r3 c1 c2 c3.

(** ** Reading a log *)

(** The line a mask stands for is asserted in a status word. *)
Definition line_on (mask word : Z) : bool := negb (Z.land word mask =? 0).

(** The (DTR, RTS) levels of a status word. *)
Definition lines {W : Type} (host : Host W) (word : Z) : bool * bool :=
  (line_on (TIOCM_DTR host) word, line_on (TIOCM_RTS host) word).

(** Two status words agree on every bit outside a mask. *)
Definition same_outside (mask a b : Z) : Prop :=
  Z.land a (Z.lnot mask) = Z.land b (Z.lnot mask).

(** The header gives DTR and RTS a bit of their own each: the masks are not
    empty and do not overlap. *)
Definition separate_lines {W : Type} (host : Host W) : Prop :=
  TIOCM_DTR host <> 0 /\ TIOCM_RTS host <> 0 /\
  Z.land (TIOCM_DTR host) (TIOCM_RTS host) = 0.

(** The status words handed to TIOCMSET, in order. *)
Fixpoint words_written (tr : list event) : list Z :=
  match tr with
  | [] => []
  | EvIoctlSet _ word _ :: tr' => word :: words_written tr'
  | _ :: tr' => words_written tr'
  end.

(** Every TIOCMGET that succeeds after a TIOCMSET returns the word that
    TIOCMSET was given ([last]); before the first write, and for a read
    that fails, nothing is asked. *)
Fixpoint reads_echo (last : option Z) (tr : list event) : Prop :=
  match tr with
  | [] => True
  | EvIoctlGet _ (Some v) :: tr' =>
      match last with Some w => v = w | None => True end /\ reads_echo last tr'
  | EvIoctlSet _ word _ :: tr' => reads_echo (Some word) tr'
  | _ :: tr' => reads_echo last tr'
  end.

Definition reads_return_last_write (tr : list event) : Prop :=
  reads_echo None tr.

(** What stood in the log right before a write. *)
Inductive fetched : Type :=
| NoRead                (* the write does not follow a TIOCMGET on its descriptor *)
| ReadFailed            (* it follows a TIOCMGET that failed *)
| ReadGot (v : Z).      (* it follows a TIOCMGET that stored [v] *)

Definition fetched_by (prev : option event) (fd : Z) : fetched :=
  match prev with
  | Some (EvIoctlGet fd' got) =>
      if fd' =? fd
      then match got with Some v => ReadGot v | None => ReadFailed end
      else NoRead
  | _ => NoRead
  end.

(** The changes made to the status word: each written word with what the
    call right before it read. *)
Fixpoint mutations (prev : option event) (tr : list event) : list (fetched * Z) :=
  match tr with
  | [] => []
  | e :: tr' =>
      match e with
      | EvIoctlSet fd word _ => [(fetched_by prev fd, word)]
      | _ => []
      end ++ mutations (Some e) tr'
  end.

(** The suspensions: each [usleep] with its length, and the number of the
    line write it comes right after, if it does. *)
Fixpoint suspensions (writes : nat) (after_write : bool) (tr : list event)
  : list (option nat * Z) :=
  match tr with
  | [] => []
  | EvIoctlSet _ _ _ :: tr' => suspensions (S writes) true tr'
  | EvUsleep usec :: tr' =>
      ((if after_write then Some writes else None), usec)
        :: suspensions writes false tr'
  | _ :: tr' => suspensions writes false tr'
  end.

(** The descriptors closed, in order. *)
Fixpoint closes (tr : list event) : list Z :=
  match tr with
  | [] => []
  | EvClose fd :: tr' => fd :: closes tr'
  | _ :: tr' => closes tr'
  end.

(** The results of the opens, in order. *)
Fixpoint opens (tr : list event) : list Z :=
  match tr with
  | [] => []
  | EvOpen _ _ fd :: tr' => fd :: opens tr'
  | _ :: tr' => opens tr'
  end.

(** A call without what it returned and without the text or word passed. *)
Inductive call : Type :=
| CallPrintf
| CallPerror
| CallOpen (path : string)
| CallGet (fd : Z)
| CallSet (fd : Z)
| CallUsleep (usec : Z)
| CallClose (fd : Z).

Definition call_of (e : event) : call :=
  match e with
  | EvPrintf _ => CallPrintf
  | EvPerror _ => CallPerror
  | EvOpen path _ _ => CallOpen path
  | EvIoctlGet fd _ => CallGet fd
  | EvIoctlSet fd _ _ => CallSet fd
  | EvUsleep usec => CallUsleep usec
  | EvClose fd => CallClose fd
  end.

Definition is_line_control (e : event) : bool :=
  match e with
  | EvIoctlGet _ _ | EvIoctlSet _ _ _ => true
  | _ => false
  end.

(** *** Time *)

(** A clock gives every call the time it took, in microseconds.  It is
    sound when no call takes negative time and a [usleep] takes at least
    what it was asked for. *)
Definition sound_clock (d : event -> Z) : Prop :=
  (forall e, 0 <= d e) /\ (forall usec, usec <= d (EvUsleep usec)).

(** Without contention: a [usleep] takes what it was asked for, and the
    other calls take no time. *)
Definition no_contention (e : event) : Z :=
  match e with
  | EvUsleep usec => Z.max 0 usec
  | _ => 0
  end.

(** When the log ends, for a run that starts at [now]. *)
Fixpoint end_time (d : event -> Z) (now : Z) (tr : list event) : Z :=
  match tr with
  | [] => now
  | e :: tr' => end_time d (now + d e) tr'
  end.

(** When each line write returns. *)
Fixpoint write_times (d : event -> Z) (now : Z) (tr : list event) : list Z :=
  match tr with
  | [] => []
  | e :: tr' =>
      match e with
      | EvIoctlSet _ _ _ => [now + d e]
      | _ => []
      end ++ write_times d (now + d e) tr'
  end.

(** *** Output, reads and the progress lines *)

(** The texts handed to [printf], in order: what goes to standard output. *)
Fixpoint stdout_of (tr : list event) : list string :=
  match tr with
  | [] => []
  | EvPrintf text :: tr' => text :: stdout_of tr'
  | _ :: tr' => stdout_of tr'
  end.

(** The texts [perror] writes, in order: what goes to standard error. *)
Fixpoint stderr_of (tr : list event) : list string :=
  match tr with
  | [] => []
  | EvPerror text :: tr' => text :: stderr_of tr'
  | _ :: tr' => stderr_of tr'
  end.

(** What each TIOCMGET got, in order. *)
Fixpoint reads_got (tr : list event) : list (option Z) :=
  match tr with
  | [] => []
  | EvIoctlGet _ got :: tr' => got :: reads_got tr'
  | _ :: tr' => reads_got tr'
  end.

(** Every TIOCMGET that succeeds stores a C [int]. *)
Fixpoint reads_are_ints (tr : list event) : Prop :=
  match tr with
  | [] => True
  | EvIoctlGet _ (Some v) :: tr' => in_int v /\ reads_are_ints tr'
  | _ :: tr' => reads_are_ints tr'
  end.

(** The six progress lines of a run that got its device. *)
Definition progress_lines (bootloader_mode : bool) : list string :=
  [ (if bootloader_mode
     then "Resetting ESP32S3 into bootloader mode via RTS/DTR control..." ++ LF
     else "Resetting ESP32S3 into normal mode via RTS/DTR control..." ++ LF)%string;
    ("Step 1: Setting up reset sequence..." ++ LF)%string;
    ("Step 2: Pulling EN low to reset..." ++ LF)%string;
    ("Step 3: Releasing EN to start..." ++ LF)%string;
    ("Reset sequence completed!" ++ LF)%string;
    (if bootloader_mode
     then "ESP32S3 should now be in bootloader mode for flashing." ++ LF
     else "ESP32S3 should now be running in normal mode." ++ LF)%string ].

(** ** Two hosts to run on *)

(** A Linux serial port whose driver keeps the word it is given: the world
    is the modem status word.  One device exists. *)
Definition linux_tty : Host Z := {|
  TIOCM_DTR := 2;
  TIOCM_RTS := 4;
  sys_open := fun path _ w =>
    if String.eqb path "/dev/ttyCH343USB0" then (3, w) else (-1, w);
  sys_strerror := fun _ => "No such file or directory";
  sys_tiocmget := fun _ w => (Some w, w);
  sys_tiocmset := fun _ word _ => (0, word);
  sys_usleep := fun _ w => w;
  sys_close := fun _ w => w
|}.

(** A Linux host on which every path opens and is no terminal: each
    TIOCMGET and TIOCMSET fails.  The world counts the calls made. *)
Definition linux_file : Host Z := {|
  TIOCM_DTR := 2;
  TIOCM_RTS := 4;
  sys_open := fun _ _ w => (3, w + 1);
  sys_strerror := fun _ => "Inappropriate ioctl for device";
  sys_tiocmget := fun _ w => (None, w + 1);
  sys_tiocmset := fun _ _ w => (-1, w + 1);
  sys_usleep := fun _ w => w + 1;
  sys_close := fun _ w => w + 1
|}.

(** ** Tactics *)

(** Runs the monad's plumbing and the wrappers of the system calls, down to
    the calls of the host. *)
Ltac run_calls :=
  cbv beta iota zeta delta
    [bind ret log printf perror open ioctl_TIOCMGET ioctl_TIOCMSET usleep
     close world trace boot app fst snd].

(** Equalities of status words, bit by bit. *)
Ltac bitwise n :=
  let Hn := fresh "Hn" in
  apply Z.bits_inj'; intros n Hn;
  repeat first [ rewrite Z.land_spec | rewrite Z.lor_spec
               | rewrite Z.lnot_spec by exact Hn | rewrite Z.bits_0 ].

Ltac split_bits n :=
  repeat match goal with
         | |- context [Z.testbit ?x n] => destruct (Z.testbit x n)
         end;
  try reflexivity.

Ltac bitwise_with H :=
  let n := fresh "n" in
  let Hb := fresh "Hb" in
  bitwise n;
  pose proof (f_equal (fun z => Z.testbit z n) H) as Hb; cbv beta in Hb;
  rewrite Z.land_spec, Z.bits_0 in Hb;
  match type of Hb with
  | (Z.testbit ?d n && Z.testbit ?r n)%bool = false =>
      destruct (Z.testbit d n), (Z.testbit r n); try discriminate Hb
  end;
  split_bits n.

(** * Properties *)

(** ** [strcmp] tells equal C strings from different ones *)

Lemma c_string_first_byte (c : ascii) :
  N_of_ascii c <> 0%N -> Z.of_N (N_of_ascii c) <> 0.
Proof. lia. Qed.

Lemma strcmp_zero_iff (s1 : string) :
  forall s2, c_string s1 -> c_string s2 -> (strcmp s1 s2 = 0 <-> s1 = s2).
Proof.
  induction s1 as [|a s1 IH]; intros [|b s2]; cbn [strcmp first_byte rest_bytes c_string].
  - intros _ _. split; reflexivity.
  - intros _ [Hb _]. apply c_string_first_byte in Hb.
    split; [lia | discriminate].
  - intros [Ha _] _. apply c_string_first_byte in Ha.
    destruct (Z.eqb_spec (Z.of_N (N_of_ascii a)) 0) as [E|_]; [contradiction|].
    split; [lia | discriminate].
  - intros [Ha Hs1] [Hb Hs2]. apply c_string_first_byte in Ha.
    destruct (Z.eqb_spec (Z.of_N (N_of_ascii a)) 0) as [E|_]; [contradiction|].
    destruct (Z.eqb_spec (Z.of_N (N_of_ascii a)) (Z.of_N (N_of_ascii b))) as [E|N].
    + apply N2Z.inj in E.
      assert (a = b) as ->
        by (rewrite <- (ascii_N_embedding a), <- (ascii_N_embedding b), E; reflexivity).
      rewrite (IH s2 Hs1 Hs2). split; [intros ->; reflexivity | intros [= ->]; reflexivity].
    + split; [lia | intros [= -> _]; contradiction].
Qed.

Lemma c_string_bootloader : c_string "bootloader".
Proof. cbn. repeat split; discriminate. Qed.

Lemma strcmp_other_word (x : string) :
  c_string x -> x <> "bootloader" -> (strcmp x "bootloader" =? 0) = false.
Proof.
  intros Hx Hne. apply Z.eqb_neq. intros E.
  apply Hne. apply (strcmp_zero_iff x "bootloader" Hx c_string_bootloader). exact E.
Qed.

(** ** The bit operations on the status word *)

Lemma land_clear_self (x m : Z) : Z.land (Z.land x (Z.lnot m)) m = 0.
Proof. bitwise n. split_bits n. Qed.

Lemma land_set_self (x m : Z) : Z.land (Z.lor x m) m = m.
Proof. bitwise n. split_bits n. Qed.

Lemma land_clear_other (x m k : Z) :
  Z.land m k = 0 -> Z.land (Z.land x (Z.lnot m)) k = Z.land x k.
Proof. intros H. bitwise_with H. Qed.

Lemma land_set_other (x m k : Z) :
  Z.land m k = 0 -> Z.land (Z.lor x m) k = Z.land x k.
Proof. intros H. bitwise_with H. Qed.

Lemma line_off_when_cleared (x m : Z) : line_on m (Z.land x (Z.lnot m)) = false.
Proof. unfold line_on. rewrite land_clear_self. reflexivity. Qed.

Lemma line_on_when_set (x m : Z) : m <> 0 -> line_on m (Z.lor x m) = true.
Proof.
  intros Hm. unfold line_on. rewrite land_set_self.
  apply negb_true_iff, Z.eqb_neq, Hm.
Qed.

Lemma line_kept_when_other_cleared (x m k : Z) :
  Z.land m k = 0 -> line_on k (Z.land x (Z.lnot m)) = line_on k x.
Proof. intros H. unfold line_on. rewrite (land_clear_other _ _ _ H). reflexivity. Qed.

Lemma line_kept_when_other_set (x m k : Z) :
  Z.land m k = 0 -> line_on k (Z.lor x m) = line_on k x.
Proof. intros H. unfold line_on. rewrite (land_set_other _ _ _ H). reflexivity. Qed.

Lemma same_outside_set (x m : Z) : same_outside m (Z.lor x m) x.
Proof.
  unfold same_outside. bitwise n. split_bits n.
Qed.

Lemma same_outside_clear (x m : Z) : same_outside m (Z.land x (Z.lnot m)) x.
Proof.
  unfold same_outside. bitwise n. split_bits n.
Qed.

Lemma same_outside_line (m k a b : Z) :
  Z.land m k = 0 -> same_outside m a b -> line_on k a = line_on k b.
Proof.
  intros H S. unfold line_on.
  assert (Z.land a k = Z.land b k) as ->; [|reflexivity].
  unfold same_outside in S.
  apply Z.bits_inj'; intros n Hn.
  pose proof (f_equal (fun z => Z.testbit z n) S) as Sn.
  pose proof (f_equal (fun z => Z.testbit z n) H) as Hb.
  cbv beta in Sn, Hb.
  rewrite !Z.land_spec, !Z.lnot_spec in Sn by exact Hn.
  rewrite Z.land_spec, Z.bits_0 in Hb.
  rewrite !Z.land_spec.
  destruct (Z.testbit a n), (Z.testbit b n), (Z.testbit m n), (Z.testbit k n);
    simpl in *; congruence.
Qed.

(** ** The status word stays a C [int]

    [status] is an [int], and the model computes on [Z].  Clearing or
    setting the bits of a mask that is a positive [int] takes an [int] to an
    [int], so the operations of [Z] are those of the C program: nothing
    wraps around. *)

Lemma land_le_nonneg (a c : Z) : 0 <= a -> 0 <= Z.land a c <= a.
Proof.
  intros Ha. split; [apply Z.land_nonneg; left; exact Ha|].
  assert (0 <= Z.land a (Z.lnot c)) by (apply Z.land_nonneg; left; exact Ha).
  pose proof (Z.sub_land_same_l a c). lia.
Qed.

Lemma lor_below_pow2 (a b n : Z) :
  0 <= a < 2 ^ n -> 0 <= b < 2 ^ n -> 0 <= Z.lor a b < 2 ^ n.
Proof.
  intros Ha Hb.
  assert (0 <= Z.lor a b) as H0 by (apply Z.lor_nonneg; lia).
  split; [exact H0|].
  destruct (Z.eq_dec (Z.lor a b) 0) as [E|N]; [lia|].
  assert (0 < n) as Hn.
  { destruct (Z_lt_le_dec 0 n) as [|Hle]; [assumption|exfalso].
    assert (2 ^ n <= 1).
    { destruct (Z.eq_dec n 0) as [->|]; [simpl; lia|].
      rewrite Z.pow_neg_r by lia. lia. }
    assert (a = 0) as -> by lia. assert (b = 0) as -> by lia.
    apply N. reflexivity. }
  apply Z.log2_lt_pow2; [lia|].
  rewrite Z.log2_lor by lia.
  assert (forall z, 0 <= z < 2 ^ n -> Z.log2 z < n) as Hlog.
  { intros z Hz. destruct (Z.eq_dec z 0) as [->|]; [simpl; lia|].
    apply Z.log2_lt_pow2; lia. }
  pose proof (Hlog a Ha). pose proof (Hlog b Hb). lia.
Qed.

Lemma set_mask_fits_int (x m : Z) :
  in_int x -> 0 <= m <= INT_MAX -> in_int (Z.lor x m).
Proof.
  unfold in_int, INT_MIN, INT_MAX. intros Hx Hm.
  destruct (Z_lt_le_dec x 0) as [Hneg|Hpos].
  - pose proof (Z.lnot_lor x m) as E.
    pose proof (land_le_nonneg (Z.lnot x) (Z.lnot m)) as B.
    rewrite <- E in B. rewrite !Z.lnot_eq_pred_opp in B. lia.
  - pose proof (lor_below_pow2 x m 31). lia.
Qed.

Lemma clear_mask_fits_int (x m : Z) :
  in_int x -> 0 <= m <= INT_MAX -> in_int (Z.land x (Z.lnot m)).
Proof.
  unfold in_int, INT_MIN, INT_MAX. intros Hx Hm.
  destruct (Z_lt_le_dec x 0) as [Hneg|Hpos].
  - pose proof (Z.lnot_ldiff x m) as E. rewrite Z.ldiff_land in E.
    pose proof (lor_below_pow2 (Z.lnot x) m 31) as B.
    rewrite <- E in B. clear E.
    set (y := Z.land x (Z.lnot m)) in *.
    rewrite !Z.lnot_eq_pred_opp in B. lia.
  - pose proof (land_le_nonneg x (Z.lnot m)). lia.
Qed.

(** ** The three ways through [main] *)

Section Runs.

Variable W : Type.
Variable host : Host W.

Lemma main_usage (argv : list string) (status0 : Z) (w0 : W) :
  Z.of_nat (List.length argv) < 2 \/ 3 < Z.of_nat (List.length argv) ->
  main host argv status0 (boot w0)
  = (-1, {| world := w0; trace := usage_log (arg argv 0) |}).
Proof.
  intros Hargc. unfold main.
  assert ((Z.of_nat (List.length argv) <? 2) || (Z.of_nat (List.length argv) >? 3) = true)
    as -> by (apply orb_true_iff; destruct Hargc; [left|right]; lia).
  reflexivity.
Qed.

Lemma main_open_failed (argv : list string) (status0 : Z) (w0 : W) :
  2 <= Z.of_nat (List.length argv) <= 3 ->
  fst (sys_open host (arg argv 1) open_flags w0) < 0 ->
  let fd := fst (sys_open host (arg argv 1) open_flags w0) in
  let w1 := snd (sys_open host (arg argv 1) open_flags w0) in
  main host argv status0 (boot w0)
  = (-1, {| world := w1;
            trace := [ EvOpen (arg argv 1) open_flags fd;
                       EvPerror ("Failed to open serial device: "
                                 ++ sys_strerror host w1 ++ LF)%string ] |}).
Proof.
  intros Hargc Hfd. unfold main, open_flags in *.
  assert ((Z.of_nat (List.length argv) <? 2) || (Z.of_nat (List.length argv) >? 3) = false)
    as -> by (apply orb_false_iff; lia).
  run_calls.
  destruct (sys_open host (arg argv 1) [O_RDWR; O_NOCTTY] w0) as [fd w1].
  run_calls. cbn [fst] in Hfd.
  assert ((fd <? 0) = true) as -> by lia.
  reflexivity.
Qed.

Lemma main_opened (argv : list string) (status0 : Z) (w0 : W) :
  2 <= Z.of_nat (List.length argv) <= 3 ->
  0 <= fst (sys_open host (arg argv 1) open_flags w0) ->
  exists t1 t2 t3 t4 t5 t6 r1 r2 r3 c1 c2 c3 wf,
    main host argv status0 (boot w0)
    = (0, {| world := wf;
             trace := reset_log host (arg argv 1)
                        (fst (sys_open host (arg argv 1) open_flags w0))
                        (wants_bootloader argv) status0
                        t1 t2 t3 t4 t5 t6 r1 r2 r3 c1 c2 c3 |}).
Proof.
  intros Hargc Hfd. unfold main, open_flags in *.
  assert ((Z.of_nat (List.length argv) <? 2) || (Z.of_nat (List.length argv) >? 3) = false)
    as -> by (apply orb_false_iff; lia).
  fold (wants_bootloader argv).
  run_calls.
  destruct (sys_open host (arg argv 1) [O_RDWR; O_NOCTTY] w0) as [fd w1].
  run_calls. cbn [fst] in Hfd.
  assert ((fd <? 0) = false) as -> by lia.
  destruct (sys_tiocmget host fd w1) as [r1 w2]; run_calls.
  destruct (sys_tiocmset host fd _ w2) as [c1 w3]; run_calls.
  destruct (sys_tiocmget host fd _) as [r2 w4]; run_calls.
  destruct (sys_tiocmset host fd _ w4) as [c2 w5]; run_calls.
  destruct (sys_tiocmget host fd _) as [r3 w6]; run_calls.
  destruct (sys_tiocmset host fd _ w6) as [c3 w7]; run_calls.
  do 6 eexists. exists r1, r2, r3, c1, c2, c3. eexists.
  reflexivity.
Qed.

(** The words the three steps hand to TIOCMSET are [int]s. *)
Lemma step_words_fit_int (mode : bool) (status : Z) :
  0 <= TIOCM_DTR host <= INT_MAX ->
  0 <= TIOCM_RTS host <= INT_MAX ->
  in_int status ->
  in_int (step1_word host mode status) /\
  in_int (step2_word host status) /\
  in_int (step3_word host status).
Proof.
  intros Hd Hr Hs. unfold step1_word, step2_word, step3_word.
  pose proof (clear_mask_fits_int status _ Hs Hd) as H1.
  split; [|split];
    [ destruct mode;
      [ apply set_mask_fits_int | apply clear_mask_fits_int ]; assumption
    | apply set_mask_fits_int; assumption
    | exact H1 ].
Qed.

(** ** The line levels written (C1, C2) *)

Lemma stored_echo (r : option Z) (w : Z) :
  match r with Some v => v = w | None => True end -> stored r w = w.
Proof. destruct r as [v|]; [intros ->|intros _]; reflexivity. Qed.

(** On a log of the full sequence, reads that return the last written word
    leave [status] as the program last wrote it. *)
Lemma reset_log_echo path fd mode status0 t1 t2 t3 t4 t5 t6 r1 r2 r3 c1 c2 c3 :
  reads_return_last_write
    (reset_log host path fd mode status0 t1 t2 t3 t4 t5 t6 r1 r2 r3 c1 c2 c3) ->
  words_written
    (reset_log host path fd mode status0 t1 t2 t3 t4 t5 t6 r1 r2 r3 c1 c2 c3)
  = let w1 := step1_word host mode (stored r1 status0) in
    [w1; step2_word host w1; step3_word host (step2_word host w1)].
Proof.
  unfold reads_return_last_write, reset_log. cbv zeta. intros H.
  cbn [words_written].
  assert (stored r2 (step1_word host mode (stored r1 status0))
          = step1_word host mode (stored r1 status0)) as E2.
  { apply stored_echo. destruct r1, r2; cbn in H; tauto. }
  rewrite E2 in *.
  assert (stored r3 (step2_word host (step1_word host mode (stored r1 status0)))
          = step2_word host (step1_word host mode (stored r1 status0))) as E3.
  { apply stored_echo. destruct r1, r2, r3; cbn in H; tauto. }
  rewrite E3. reflexivity.
Qed.

Lemma lines_of_sequence (mode : bool) (status : Z) :
  separate_lines host ->
  let w1 := step1_word host mode status in
  map (lines host) [w1; step2_word host w1; step3_word host (step2_word host w1)]
  = [(false, mode); (true, mode); (false, mode)].
Proof.
  intros (Hd & Hr & Hdr).
  assert (Z.land (TIOCM_RTS host) (TIOCM_DTR host) = 0) as Hrd
    by (rewrite Z.land_comm; exact Hdr).
  assert (lines host (step1_word host mode status) = (false, mode)) as L1.
  { unfold lines, step1_word. destruct mode.
    - rewrite (line_kept_when_other_set _ _ _ Hrd), line_off_when_cleared.
      rewrite (line_on_when_set _ _ Hr). reflexivity.
    - rewrite (line_kept_when_other_cleared _ _ _ Hrd), !line_off_when_cleared.
      reflexivity. }
  assert (lines host (step2_word host (step1_word host mode status)) = (true, mode)) as L2.
  { unfold lines, step2_word in *.
    rewrite (line_on_when_set _ _ Hd), (line_kept_when_other_set _ _ _ Hdr).
    injection L1 as _ ->. reflexivity. }
  assert (lines host (step3_word host (step2_word host (step1_word host mode status)))
          = (false, mode)) as L3.
  { unfold lines, step3_word in *.
    rewrite line_off_when_cleared, (line_kept_when_other_cleared _ _ _ Hdr).
    injection L2 as _ ->. reflexivity. }
  cbv zeta. cbn [map]. rewrite L1, L2, L3. reflexivity.
Qed.

(** C1.  Device path that opens, no second argument: exactly three status
    words are written, with (DTR, RTS) = (0,0), then (1,0), then (0,0),
    when every read that succeeds after a write returns the word last
    written. *)
Theorem normal_reset_line_sequence (prog dev : string) (status0 : Z) (w0 : W) :
  separate_lines host ->
  0 <= fst (sys_open host dev open_flags w0) ->
  let tr := trace (snd (main host [prog; dev] status0 (boot w0))) in
  reads_return_last_write tr ->
  map (lines host) (words_written tr)
  = [(false, false); (true, false); (false, false)].
Proof.
  intros Hsep Hfd.
  destruct (main_opened [prog; dev] status0 w0) as
    (t1 & t2 & t3 & t4 & t5 & t6 & r1 & r2 & r3 & c1 & c2 & c3 & wf & E);
    [cbn; lia | exact Hfd |].
  rewrite E. cbn [snd trace]. intros Hecho.
  rewrite (reset_log_echo _ _ _ _ _ _ _ _ _ _ _ _ _ _ _ _ Hecho).
  change (wants_bootloader [prog; dev]) with false.
  apply (lines_of_sequence false _ Hsep).
Qed.

(** C2.  Device path that opens, second argument the word bootloader:
    exactly three status words are written, with (DTR, RTS) = (0,1), then
    (1,1), then (0,1), under the same assumption on the reads. *)
Theorem bootloader_reset_line_sequence (prog dev : string) (status0 : Z) (w0 : W) :
  separate_lines host ->
  0 <= fst (sys_open host dev open_flags w0) ->
  let tr := trace (snd (main host [prog; dev; "bootloader"] status0 (boot w0))) in
  reads_return_last_write tr ->
  map (lines host) (words_written tr)
  = [(false, true); (true, true); (false, true)].
Proof.
  intros Hsep Hfd.
  destruct (main_opened [prog; dev; "bootloader"] status0 w0) as
    (t1 & t2 & t3 & t4 & t5 & t6 & r1 & r2 & r3 & c1 & c2 & c3 & wf & E);
    [cbn; lia | exact Hfd |].
  rewrite E. cbn [snd trace]. intros Hecho.
  rewrite (reset_log_echo _ _ _ _ _ _ _ _ _ _ _ _ _ _ _ _ Hecho).
  change (wants_bootloader [prog; dev; "bootloader"]) with true.
  apply (lines_of_sequence true _ Hsep).
Qed.

(** ** Usage errors (C3) *)

(** C3, amended.  With no argument or with three or more arguments after
    the program name, whatever they are, [main] prints the usage message
    to standard output and returns -1; no device is opened, nothing else
    is called and the world is left as it was. *)
Theorem usage_on_wrong_argument_count
  (prog : string) (args : list string) (status0 : Z) (w0 : W) :
  (List.length args = 0 \/ 3 <= List.length args)%nat ->
  let r := main host (prog :: args) status0 (boot w0) in
  fst r = -1 /\
  trace (snd r) = usage_log prog /\
  opens (trace (snd r)) = [] /\
  world (snd r) = w0.
Proof.
  intros Hargs. cbv zeta.
  rewrite main_usage by (cbn [List.length]; lia).
  repeat split.
Qed.

(** ** The device does not open (C4) *)

(** C4.  When the device path cannot be opened, [main] writes the message
    with the reason the host reports to standard error and returns -1 at
    once: the log holds the open and the message, and no line-control
    call. *)
Theorem open_failure_stops_the_run
  (prog dev : string) (rest : list string) (status0 : Z) (w0 : W) :
  (List.length rest <= 1)%nat ->
  fst (sys_open host dev open_flags w0) < 0 ->
  let r := main host (prog :: dev :: rest) status0 (boot w0) in
  let w1 := snd (sys_open host dev open_flags w0) in
  fst r = -1 /\
  trace (snd r)
  = [ EvOpen dev open_flags (fst (sys_open host dev open_flags w0));
      EvPerror ("Failed to open serial device: "
                ++ sys_strerror host w1 ++ LF)%string ] /\
  filter is_line_control (trace (snd r)) = [] /\
  world (snd r) = w1.
Proof.
  intros Hrest Hfd. cbv zeta.
  rewrite (main_open_failed (prog :: dev :: rest) status0 w0)
    by (cbn [List.length arg nth]; first [lia | exact Hfd]).
  cbn [arg nth fst snd trace world filter is_line_control].
  repeat split.
Qed.

(** ** Read, modify, write (C5) *)

(** C5, amended.  Every write of the status word comes right after a
    TIOCMGET on the same descriptor.  When that read succeeds, the word
    written in step 1 differs from the word read at most in the DTR and
    RTS bits, and the words written in steps 2 and 3 differ from the word
    read at most in the DTR bit: the RTS line is written as it was read. *)
Theorem mutations_are_read_modify_write
  (prog dev : string) (rest : list string) (status0 : Z) (w0 : W) :
  separate_lines host ->
  (List.length rest <= 1)%nat ->
  0 <= fst (sys_open host dev open_flags w0) ->
  let tr := trace (snd (main host (prog :: dev :: rest) status0 (boot w0))) in
  exists f1 f2 f3 w1 w2 w3,
    mutations None tr = [(f1, w1); (f2, w2); (f3, w3)] /\
    (f1 <> NoRead /\ f2 <> NoRead /\ f3 <> NoRead) /\
    (forall v, f1 = ReadGot v ->
       same_outside (Z.lor (TIOCM_DTR host) (TIOCM_RTS host)) w1 v) /\
    (forall v, f2 = ReadGot v ->
       same_outside (TIOCM_DTR host) w2 v /\
       line_on (TIOCM_RTS host) w2 = line_on (TIOCM_RTS host) v) /\
    (forall v, f3 = ReadGot v ->
       same_outside (TIOCM_DTR host) w3 v /\
       line_on (TIOCM_RTS host) w3 = line_on (TIOCM_RTS host) v).
Proof.
  intros (Hd & Hr & Hdr) Hrest Hfd.
  destruct (main_opened (prog :: dev :: rest) status0 w0) as
    (t1 & t2 & t3 & t4 & t5 & t6 & r1 & r2 & r3 & c1 & c2 & c3 & wf & E);
    [cbn [List.length]; lia | exact Hfd |].
  cbv zeta. rewrite E. cbn [snd trace]. unfold reset_log. cbv zeta.
  cbn [mutations app fetched_by]. rewrite Z.eqb_refl.
  do 6 eexists. split; [reflexivity|].
  split; [repeat split; destruct r1, r2, r3; discriminate|].
  split; [|split].
  - intros v Hv. destruct r1 as [v1|]; [|discriminate].
    injection Hv as <-. cbn [stored]. unfold step1_word, same_outside.
    destruct (wants_bootloader _); bitwise n; split_bits n.
  - intros v Hv. destruct r2 as [v2|]; [|discriminate].
    injection Hv as <-. cbn [stored]. unfold step2_word.
    split; [apply same_outside_set | apply (line_kept_when_other_set _ _ _ Hdr)].
  - intros v Hv. destruct r3 as [v3|]; [|discriminate].
    injection Hv as <-. cbn [stored]. unfold step3_word.
    split; [apply same_outside_clear | apply (line_kept_when_other_cleared _ _ _ Hdr)].
Qed.

(** ** Suspensions and elapsed time (C6) *)

(** C6, amended.  A run that got its device suspends exactly three times:
    50 ms right after the first line write, 100 ms right after the second
    and 200 ms right after the third.  On every sound clock the third
    write returns at least 150 ms (50+100) after the first, and the run
    ends at least 350 ms (50+100+200) after the first write. *)
Theorem sleeps_and_elapsed_time
  (prog dev : string) (rest : list string) (status0 : Z) (w0 : W)
  (d : event -> Z) :
  (List.length rest <= 1)%nat ->
  0 <= fst (sys_open host dev open_flags w0) ->
  sound_clock d ->
  let tr := trace (snd (main host (prog :: dev :: rest) status0 (boot w0))) in
  suspensions 0 false tr
  = [(Some 1%nat, 50000); (Some 2%nat, 100000); (Some 3%nat, 200000)] /\
  exists at1 at2 at3,
    write_times d 0 tr = [at1; at2; at3] /\
    150000 <= at3 - at1 /\
    350000 <= end_time d 0 tr - at1.
Proof.
  intros Hrest Hfd [Hpos Hsleep].
  destruct (main_opened (prog :: dev :: rest) status0 w0) as
    (t1 & t2 & t3 & t4 & t5 & t6 & r1 & r2 & r3 & c1 & c2 & c3 & wf & E);
    [cbn [List.length]; lia | exact Hfd |].
  cbv zeta. rewrite E. cbn [snd trace]. unfold reset_log. cbv zeta.
  split; [reflexivity|].
  cbn [write_times end_time app].
  do 3 eexists. split; [reflexivity|].
  pose proof (Hsleep 50000). pose proof (Hsleep 100000). pose proof (Hsleep 200000).
  repeat match goal with
         | |- context [d ?e] =>
             lazymatch goal with
             | _ : 0 <= d e |- _ => fail
             | _ => pose proof (Hpos e)
             end
         end.
  lia.
Qed.

(** ** Exit codes (C7) *)

(** C7.  [main] returns 0 exactly on success, that is when the argument
    count is right and the device opens, which is when the three line
    writes are made; it returns -1 exactly when the argument count is wrong
    or the device does not open; it returns nothing else. *)
Theorem exit_codes (argv : list string) (status0 : Z) (w0 : W) :
  let argc := Z.of_nat (List.length argv) in
  let fd := fst (sys_open host (arg argv 1) open_flags w0) in
  let code := fst (main host argv status0 (boot w0)) in
  let tr := trace (snd (main host argv status0 (boot w0))) in
  (code = 0 <-> 2 <= argc <= 3 /\ 0 <= fd) /\
  (code = 0 <-> List.length (words_written tr) = 3%nat) /\
  (code = -1 <-> argc < 2 \/ 3 < argc \/ fd < 0) /\
  (code = 0 \/ code = -1).
Proof.
  cbv zeta.
  destruct (Z_lt_ge_dec (Z.of_nat (List.length argv)) 2) as [H2|H2];
    [rewrite main_usage by lia; cbn; lia|].
  destruct (Z_lt_ge_dec 3 (Z.of_nat (List.length argv))) as [H3|H3];
    [rewrite main_usage by lia; cbn; lia|].
  destruct (Z_lt_ge_dec (fst (sys_open host (arg argv 1) open_flags w0)) 0) as [Hfd|Hfd].
  - rewrite main_open_failed by lia. cbn. lia.
  - destruct (main_opened argv status0 w0) as
      (t1 & t2 & t3 & t4 & t5 & t6 & r1 & r2 & r3 & c1 & c2 & c3 & wf & E);
      [lia | lia |].
    rewrite E. cbn. lia.
Qed.

(** ** Line-control failures (C8) *)

(** C8.  Once the device is open, [main] makes the same calls in the same
    order and returns 0 whatever the six line-control calls return: the
    host is arbitrary, and its TIOCMGET and TIOCMSET may fail at will. *)
Theorem line_control_results_are_ignored
  (prog dev : string) (rest : list string) (status0 : Z) (w0 : W) :
  (List.length rest <= 1)%nat ->
  0 <= fst (sys_open host dev open_flags w0) ->
  let fd := fst (sys_open host dev open_flags w0) in
  let r := main host (prog :: dev :: rest) status0 (boot w0) in
  fst r = 0 /\
  map call_of (trace (snd r))
  = [ CallOpen dev; CallPrintf;
      CallPrintf; CallGet fd; CallSet fd; CallUsleep 50000;
      CallPrintf; CallGet fd; CallSet fd; CallUsleep 100000;
      CallPrintf; CallGet fd; CallSet fd; CallUsleep 200000;
      CallPrintf; CallPrintf; CallClose fd ].
Proof.
  intros Hrest Hfd.
  destruct (main_opened (prog :: dev :: rest) status0 w0) as
    (t1 & t2 & t3 & t4 & t5 & t6 & r1 & r2 & r3 & c1 & c2 & c3 & wf & E);
    [cbn [List.length]; lia | exact Hfd |].
  cbv zeta. rewrite E. split; reflexivity.
Qed.

(** ** The handle is closed (C9) *)

(** C9.  The descriptors [main] closes are those its opens returned as
    handles (not negative), each once; there is at most one open, and a
    close is the last call of the run.  So an opened handle is closed
    exactly once before the exit, and nothing is closed when the open
    failed or was not made. *)
Theorem handle_closed_exactly_once (argv : list string) (status0 : Z) (w0 : W) :
  let tr := trace (snd (main host argv status0 (boot w0))) in
  closes tr = filter (fun fd => 0 <=? fd) (opens tr) /\
  (List.length (opens tr) <= 1)%nat /\
  (closes tr = [] \/ exists fd tr', tr = tr' ++ [EvClose fd] /\ closes tr' = []).
Proof.
  cbv zeta.
  destruct (Z_lt_ge_dec (Z.of_nat (List.length argv)) 2) as [H2|H2];
    [rewrite main_usage by lia; cbn; auto|].
  destruct (Z_lt_ge_dec 3 (Z.of_nat (List.length argv))) as [H3|H3];
    [rewrite main_usage by lia; cbn; auto|].
  destruct (Z_lt_ge_dec (fst (sys_open host (arg argv 1) open_flags w0)) 0) as [Hfd|Hfd].
  - rewrite main_open_failed by lia.
    cbn [snd trace closes opens filter List.length].
    replace (0 <=? fst (sys_open host (arg argv 1) open_flags w0)) with false
      by (symmetry; apply Z.leb_gt; exact Hfd).
    auto.
  - destruct (main_opened argv status0 w0) as
      (t1 & t2 & t3 & t4 & t5 & t6 & r1 & r2 & r3 & c1 & c2 & c3 & wf & E);
      [lia | lia |].
    rewrite E. cbn [snd trace]. unfold reset_log. cbv zeta.
    cbn [closes opens filter List.length].
    replace (0 <=? fst (sys_open host (arg argv 1) open_flags w0)) with true
      by (symmetry; apply Z.leb_le; lia).
    split; [reflexivity|]. split; [lia|].
    right. eexists. eexists (_ :: _ :: _ :: _ :: _ :: _ :: _ :: _ :: _ :: _ :: _ :: _ :: _ :: _ :: _ :: [_]).
    split; reflexivity.
Qed.

(** ** A second argument that is not the word bootloader (C10) *)

(** C10.  With two arguments of which the second is not the word
    bootloader, [main] neither prints the usage nor stops: it does what it
    does with the first argument alone, a normal-mode reset of the device
    the first argument names, starting with the open of that device. *)
Theorem other_second_argument_is_normal_mode
  (prog dev x : string) (status0 : Z) (w0 : W) :
  c_string x ->
  x <> "bootloader" ->
  main host [prog; dev; x] status0 (boot w0)
  = main host [prog; dev] status0 (boot w0) /\
  exists fd tr,
    trace (snd (main host [prog; dev; x] status0 (boot w0)))
    = EvOpen dev open_flags fd :: tr.
Proof.
  intros Hx Hne.
  assert (main host [prog; dev; x] status0 (boot w0)
          = main host [prog; dev] status0 (boot w0)) as E.
  { unfold main.
    change (Z.of_nat (List.length [prog; dev; x])) with 3.
    change (Z.of_nat (List.length [prog; dev])) with 2.
    change (arg [prog; dev; x] 1) with dev.
    change (arg [prog; dev] 1) with dev.
    change (arg [prog; dev; x] 2) with x.
    rewrite (strcmp_other_word x Hx Hne).
    reflexivity. }
  split; [exact E|].
  rewrite E.
  destruct (Z_lt_ge_dec (fst (sys_open host dev open_flags w0)) 0) as [Hfd|Hfd].
  - rewrite (main_open_failed [prog; dev] status0 w0) by (cbn; first [lia | exact Hfd]).
    cbn [snd trace arg nth]. eauto.
  - destruct (main_opened [prog; dev] status0 w0) as
      (t1 & t2 & t3 & t4 & t5 & t6 & r1 & r2 & r3 & c1 & c2 & c3 & wf & E');
      [cbn; lia | cbn [arg nth]; lia |].
    rewrite E'. cbn [snd trace arg nth]. unfold reset_log. cbv zeta. eauto.
Qed.

(** ** Beyond the claims: output, the pulse, stale and foreign bits *)

(** A run that got its device, with the texts it prints. *)
Lemma main_opened_output (argv : list string) (status0 : Z) (w0 : W) :
  2 <= Z.of_nat (List.length argv) <= 3 ->
  0 <= fst (sys_open host (arg argv 1) open_flags w0) ->
  exists r1 r2 r3 c1 c2 c3 wf,
    main host argv status0 (boot w0)
    = (0, {| world := wf;
             trace := reset_log host (arg argv 1)
                        (fst (sys_open host (arg argv 1) open_flags w0))
                        (wants_bootloader argv) status0
                        (nth 0 (progress_lines (wants_bootloader argv)) "")
                        (nth 1 (progress_lines (wants_bootloader argv)) "")
                        (nth 2 (progress_lines (wants_bootloader argv)) "")
                        (nth 3 (progress_lines (wants_bootloader argv)) "")
                        (nth 4 (progress_lines (wants_bootloader argv)) "")
                        (nth 5 (progress_lines (wants_bootloader argv)) "")
                        r1 r2 r3 c1 c2 c3 |}).
Proof.
  intros Hargc Hfd. unfold main, open_flags in *.
  assert ((Z.of_nat (List.length argv) <? 2) || (Z.of_nat (List.length argv) >? 3) = false)
    as -> by (apply orb_false_iff; lia).
  fold (wants_bootloader argv).
  run_calls.
  destruct (sys_open host (arg argv 1) [O_RDWR; O_NOCTTY] w0) as [fd w1].
  run_calls. cbn [fst] in Hfd.
  assert ((fd <? 0) = false) as -> by lia.
  destruct (sys_tiocmget host fd w1) as [r1 w2]; run_calls.
  destruct (sys_tiocmset host fd _ w2) as [c1 w3]; run_calls.
  destruct (sys_tiocmget host fd _) as [r2 w4]; run_calls.
  destruct (sys_tiocmset host fd _ w4) as [c2 w5]; run_calls.
  destruct (sys_tiocmget host fd _) as [r3 w6]; run_calls.
  destruct (sys_tiocmset host fd _ w6) as [c3 w7]; run_calls.
  exists r1, r2, r3, c1, c2, c3. eexists.
  reflexivity.
Qed.

(** Step 3 clears what step 2 set: it gives back the word of step 1. *)
Lemma step3_after_step2 (mode : bool) (status : Z) :
  Z.land (TIOCM_DTR host) (TIOCM_RTS host) = 0 ->
  step3_word host (step2_word host (step1_word host mode status))
  = step1_word host mode status.
Proof.
  intros Hdr. unfold step3_word, step2_word, step1_word.
  destruct mode; bitwise_with Hdr.
Qed.

Lemma step1_lines (mode : bool) (status : Z) :
  separate_lines host ->
  lines host (step1_word host mode status) = (false, mode).
Proof.
  intros Hsep. pose proof (lines_of_sequence mode status Hsep) as H.
  cbv zeta in H. exact (f_equal (fun l => hd (false, false) l) H).
Qed.

Lemma step1_same_outside (mode : bool) (status : Z) :
  same_outside (Z.lor (TIOCM_DTR host) (TIOCM_RTS host))
    (step1_word host mode status) status.
Proof.
  unfold step1_word, same_outside. destruct mode; bitwise n; split_bits n.
Qed.

(** X1.  A run that got its device prints the six progress lines, the
    first and the last in the wording of its mode, and writes nothing to
    standard error. *)
Theorem progress_output
  (prog dev : string) (rest : list string) (status0 : Z) (w0 : W) :
  (List.length rest <= 1)%nat ->
  0 <= fst (sys_open host dev open_flags w0) ->
  let tr := trace (snd (main host (prog :: dev :: rest) status0 (boot w0))) in
  stdout_of tr = progress_lines (wants_bootloader (prog :: dev :: rest)) /\
  stderr_of tr = [].
Proof.
  intros Hrest Hfd.
  destruct (main_opened_output (prog :: dev :: rest) status0 w0) as
    (r1 & r2 & r3 & c1 & c2 & c3 & wf & E);
    [cbn [List.length]; lia | exact Hfd |].
  cbv zeta. rewrite E. cbn [snd trace]. unfold reset_log. cbv zeta.
  cbn [stdout_of stderr_of]. split; reflexivity.
Qed.

(** X2.  Standard error is written exactly when the argument count is
    right and the open fails, and exactly then nothing goes to standard
    output: every other run prints to standard output only. *)
Theorem stderr_only_on_open_failure (argv : list string) (status0 : Z) (w0 : W) :
  let argc := Z.of_nat (List.length argv) in
  let fd := fst (sys_open host (arg argv 1) open_flags w0) in
  let tr := trace (snd (main host argv status0 (boot w0))) in
  (stderr_of tr <> [] <-> 2 <= argc <= 3 /\ fd < 0) /\
  (stdout_of tr = [] <-> 2 <= argc <= 3 /\ fd < 0).
Proof.
  cbv zeta.
  destruct (Z_lt_ge_dec (Z.of_nat (List.length argv)) 2) as [H2|H2];
    [rewrite main_usage by lia; cbn [snd trace usage_log stdout_of stderr_of];
     split; split; first [congruence | lia | discriminate]|].
  destruct (Z_lt_ge_dec 3 (Z.of_nat (List.length argv))) as [H3|H3];
    [rewrite main_usage by lia; cbn [snd trace usage_log stdout_of stderr_of];
     split; split; first [congruence | lia | discriminate]|].
  destruct (Z_lt_ge_dec (fst (sys_open host (arg argv 1) open_flags w0)) 0) as [Hfd|Hfd].
  - rewrite main_open_failed by lia. cbn [snd trace stdout_of stderr_of].
    split; split; first [discriminate | lia | reflexivity | intros _; lia].
  - destruct (main_opened argv status0 w0) as
      (t1 & t2 & t3 & t4 & t5 & t6 & r1 & r2 & r3 & c1 & c2 & c3 & wf & E);
      [lia | lia |].
    rewrite E. cbn [snd trace]. unfold reset_log. cbv zeta.
    cbn [stdout_of stderr_of].
    split; split; first [congruence | lia | discriminate].
Qed.

(** X3.  Whatever the reads return, and whether they fail or not, a run
    that got its device writes DTR off, then on, then off, and its first
    write puts RTS at the level of the mode. *)
Theorem reset_pulse_whatever_is_read
  (prog dev : string) (rest : list string) (status0 : Z) (w0 : W) :
  separate_lines host ->
  (List.length rest <= 1)%nat ->
  0 <= fst (sys_open host dev open_flags w0) ->
  let tr := trace (snd (main host (prog :: dev :: rest) status0 (boot w0))) in
  exists w1 w2 w3,
    words_written tr = [w1; w2; w3] /\
    lines host w1 = (false, wants_bootloader (prog :: dev :: rest)) /\
    line_on (TIOCM_DTR host) w2 = true /\
    line_on (TIOCM_DTR host) w3 = false.
Proof.
  intros Hsep Hrest Hfd.
  destruct (main_opened (prog :: dev :: rest) status0 w0) as
    (t1 & t2 & t3 & t4 & t5 & t6 & r1 & r2 & r3 & c1 & c2 & c3 & wf & E);
    [cbn [List.length]; lia | exact Hfd |].
  cbv zeta. rewrite E. cbn [snd trace]. unfold reset_log. cbv zeta.
  cbn [words_written]. do 3 eexists. split; [reflexivity|].
  split; [apply (step1_lines _ _ Hsep)|].
  destruct Hsep as (Hd & _ & _).
  split; [apply (line_on_when_set _ _ Hd) | apply line_off_when_cleared].
Qed.

(** X4.  When the first TIOCMGET fails, the word of the first write is
    built from the value the uninitialised [status] happens to hold. *)
Theorem failed_first_read_writes_stale_status
  (prog dev : string) (rest : list string) (status0 : Z) (w0 : W) :
  (List.length rest <= 1)%nat ->
  0 <= fst (sys_open host dev open_flags w0) ->
  let tr := trace (snd (main host (prog :: dev :: rest) status0 (boot w0))) in
  hd_error (reads_got tr) = Some None ->
  hd_error (words_written tr)
  = Some (step1_word host (wants_bootloader (prog :: dev :: rest)) status0).
Proof.
  intros Hrest Hfd.
  destruct (main_opened (prog :: dev :: rest) status0 w0) as
    (t1 & t2 & t3 & t4 & t5 & t6 & r1 & r2 & r3 & c1 & c2 & c3 & wf & E);
    [cbn [List.length]; lia | exact Hfd |].
  cbv zeta. rewrite E. cbn [snd trace]. unfold reset_log. cbv zeta.
  cbn [reads_got words_written hd_error]. intros [= ->]. reflexivity.
Qed.

(** X5.  When every read that succeeds after a write returns the word last
    written, the second write is the first word with DTR set and the third
    write is the first word again; and the first word differs from what
    the first read got at most in the DTR and RTS bits, so the other bits
    of the status word go through the run untouched. *)
Theorem third_write_restores_first
  (prog dev : string) (rest : list string) (status0 : Z) (w0 : W) :
  separate_lines host ->
  (List.length rest <= 1)%nat ->
  0 <= fst (sys_open host dev open_flags w0) ->
  let tr := trace (snd (main host (prog :: dev :: rest) status0 (boot w0))) in
  reads_return_last_write tr ->
  exists w1,
    words_written tr = [w1; Z.lor w1 (TIOCM_DTR host); w1] /\
    (forall v, hd_error (reads_got tr) = Some (Some v) ->
       same_outside (Z.lor (TIOCM_DTR host) (TIOCM_RTS host)) w1 v).
Proof.
  intros (Hd & Hr & Hdr) Hrest Hfd.
  destruct (main_opened (prog :: dev :: rest) status0 w0) as
    (t1 & t2 & t3 & t4 & t5 & t6 & r1 & r2 & r3 & c1 & c2 & c3 & wf & E);
    [cbn [List.length]; lia | exact Hfd |].
  cbv zeta. rewrite E. cbn [snd trace]. intros Hecho.
  rewrite (reset_log_echo _ _ _ _ _ _ _ _ _ _ _ _ _ _ _ _ Hecho). cbv zeta.
  rewrite (step3_after_step2 _ _ Hdr).
  eexists. split; [reflexivity|].
  unfold reset_log. cbv zeta. cbn [reads_got hd_error].
  intros v [= ->]. cbn [stored]. apply step1_same_outside.
Qed.

(** X6.  With one or two arguments the program name plays no part: the
    run is the same under any name. *)
Theorem program_name_is_irrelevant
  (prog prog' dev : string) (rest : list string) (status0 : Z) (w0 : W) :
  (List.length rest <= 1)%nat ->
  main host (prog :: dev :: rest) status0 (boot w0)
  = main host (prog' :: dev :: rest) status0 (boot w0).
Proof.
  intros Hrest. unfold main.
  change (List.length (prog :: dev :: rest)) with (S (S (List.length rest))).
  change (List.length (prog' :: dev :: rest)) with (S (S (List.length rest))).
  assert ((Z.of_nat (S (S (List.length rest))) <? 2)
          || (Z.of_nat (S (S (List.length rest))) >? 3) = false)
    as -> by (apply orb_false_iff; split;
              [apply Z.ltb_ge | rewrite Z.gtb_ltb; apply Z.ltb_ge]; lia).
  reflexivity.
Qed.

(** X7.  The words handed to TIOCMSET are C [int]s when the two masks are
    positive [int]s, [status] starts as an [int] and the reads store
    [int]s: no bit operation of the run leaves the range. *)
Theorem written_words_are_ints
  (prog dev : string) (rest : list string) (status0 : Z) (w0 : W) :
  0 <= TIOCM_DTR host <= INT_MAX ->
  0 <= TIOCM_RTS host <= INT_MAX ->
  in_int status0 ->
  (List.length rest <= 1)%nat ->
  0 <= fst (sys_open host dev open_flags w0) ->
  let tr := trace (snd (main host (prog :: dev :: rest) status0 (boot w0))) in
  reads_are_ints tr ->
  Forall in_int (words_written tr).
Proof.
  intros Hd Hr Hs Hrest Hfd.
  destruct (main_opened (prog :: dev :: rest) status0 w0) as
    (t1 & t2 & t3 & t4 & t5 & t6 & r1 & r2 & r3 & c1 & c2 & c3 & wf & E);
    [cbn [List.length]; lia | exact Hfd |].
  cbv zeta. rewrite E. cbn [snd trace]. unfold reset_log. cbv zeta.
  intros Hints. cbn [words_written].
  assert (forall r s, match r with Some v => in_int v | None => True end ->
                      in_int s -> in_int (stored r s)) as Hstored
    by (intros [v|] s Hv Hin; cbn [stored]; assumption).
  assert (in_int (stored r1 status0)) as I1
    by (apply Hstored; [destruct r1, r2, r3; cbn in Hints; tauto | exact Hs]).
  pose proof (step_words_fit_int (wants_bootloader (prog :: dev :: rest)) _ Hd Hr I1)
    as (W1 & _ & _).
  assert (in_int (stored r2 (step1_word host (wants_bootloader (prog :: dev :: rest))
                               (stored r1 status0)))) as I2
    by (apply Hstored; [destruct r1, r2, r3; cbn in Hints; tauto | exact W1]).
  pose proof (step_words_fit_int false _ Hd Hr I2) as (_ & W2 & _).
  assert (in_int (stored r3 (step2_word host
                               (stored r2 (step1_word host
                                             (wants_bootloader (prog :: dev :: rest))
                                             (stored r1 status0)))))) as I3
    by (apply Hstored; [destruct r1, r2, r3; cbn in Hints; tauto | exact W2]).
  pose proof (step_words_fit_int false _ Hd Hr I3) as (_ & _ & W3).
  constructor; [exact W1|]. constructor; [exact W2|].
  constructor; [exact W3|]. constructor.
Qed.


End Runs.

(** * Runs on the two hosts *)

Lemma linux_tty_separate_lines : separate_lines linux_tty.
Proof. unfold separate_lines. cbn. repeat split; discriminate. Qed.

Lemma no_contention_sound : sound_clock no_contention.
Proof. split; [intros []|intros usec]; cbn; lia. Qed.

(** C1 on the serial port, from a status word with both lines asserted. *)
Lemma normal_reset_on_linux_tty :
  separate_lines linux_tty /\
  0 <= fst (sys_open linux_tty "/dev/ttyCH343USB0" open_flags 6) /\
  reads_return_last_write
    (trace (snd (main linux_tty ["esp32s3_reset"; "/dev/ttyCH343USB0"] 0 (boot 6)))) /\
  map (lines linux_tty)
    (words_written
       (trace (snd (main linux_tty ["esp32s3_reset"; "/dev/ttyCH343USB0"] 0 (boot 6)))))
  = [(false, false); (true, false); (false, false)].
Proof.
  assert (0 <= fst (sys_open linux_tty "/dev/ttyCH343USB0" open_flags 6)) as Hfd
    by (vm_compute; discriminate).
  assert (reads_return_last_write
            (trace (snd (main linux_tty ["esp32s3_reset"; "/dev/ttyCH343USB0"] 0 (boot 6)))))
    as Hecho by (vm_compute; repeat split).
  split; [exact linux_tty_separate_lines|].
  split; [exact Hfd|]. split; [exact Hecho|].
  exact (normal_reset_line_sequence Z linux_tty "esp32s3_reset"
           "/dev/ttyCH343USB0" 0 6 linux_tty_separate_lines Hfd Hecho).
Defined.

(** C2 on the serial port, from a status word with DTR asserted. *)
Lemma bootloader_reset_on_linux_tty :
  separate_lines linux_tty /\
  0 <= fst (sys_open linux_tty "/dev/ttyCH343USB0" open_flags 2) /\
  reads_return_last_write
    (trace (snd (main linux_tty
                   ["esp32s3_reset"; "/dev/ttyCH343USB0"; "bootloader"] 0 (boot 2)))) /\
  map (lines linux_tty)
    (words_written
       (trace (snd (main linux_tty
                      ["esp32s3_reset"; "/dev/ttyCH343USB0"; "bootloader"] 0 (boot 2)))))
  = [(false, true); (true, true); (false, true)].
Proof.
  assert (0 <= fst (sys_open linux_tty "/dev/ttyCH343USB0" open_flags 2)) as Hfd
    by (vm_compute; discriminate).
  assert (reads_return_last_write
            (trace (snd (main linux_tty
                           ["esp32s3_reset"; "/dev/ttyCH343USB0"; "bootloader"] 0 (boot 2)))))
    as Hecho by (vm_compute; repeat split).
  split; [exact linux_tty_separate_lines|].
  split; [exact Hfd|]. split; [exact Hecho|].
  exact (bootloader_reset_line_sequence Z linux_tty "esp32s3_reset"
           "/dev/ttyCH343USB0" 0 2 linux_tty_separate_lines Hfd Hecho).
Defined.

(** C3 as the claim has it fails with one argument: the device named is
    opened and reset, and [main] returns 0. *)
Lemma one_argument_is_no_usage_error :
  let r := main linux_tty ["esp32s3_reset"; "/dev/ttyCH343USB0"] 0 (boot 6) in
  List.length ["/dev/ttyCH343USB0"] = 1%nat /\
  fst r = 0 /\
  opens (trace (snd r)) = [3] /\
  words_written (trace (snd r)) = [0; 2; 0].
Proof. vm_compute. repeat split. Qed.

(** C3, amended, with no argument and with three. *)
Lemma usage_without_and_with_three_arguments :
  ((List.length (@nil string) = 0 \/ 3 <= List.length (@nil string))%nat /\
   let r := main linux_tty ("esp32s3_reset" :: []) 0 (boot 6) in
   fst r = -1 /\
   trace (snd r) = usage_log "esp32s3_reset" /\
   opens (trace (snd r)) = [] /\
   world (snd r) = 6) /\
  ((List.length ["/dev/ttyCH343USB0"; "bootloader"; "now"] = 0
    \/ 3 <= List.length ["/dev/ttyCH343USB0"; "bootloader"; "now"])%nat /\
   let r := main linux_tty
              ("esp32s3_reset" :: ["/dev/ttyCH343USB0"; "bootloader"; "now"])
              0 (boot 6) in
   fst r = -1 /\
   trace (snd r) = usage_log "esp32s3_reset" /\
   opens (trace (snd r)) = [] /\
   world (snd r) = 6).
Proof.
  split; split.
  - left. reflexivity.
  - apply (usage_on_wrong_argument_count Z linux_tty). left. reflexivity.
  - right. cbn. lia.
  - apply (usage_on_wrong_argument_count Z linux_tty). right. cbn. lia.
Defined.

(** C4 on a path that does not exist. *)
Lemma open_failure_on_linux_tty :
  (List.length (@nil string) <= 1)%nat /\
  fst (sys_open linux_tty "/dev/ttyUSB9" open_flags 6) < 0 /\
  let r := main linux_tty ("esp32s3_reset" :: "/dev/ttyUSB9" :: []) 0 (boot 6) in
  fst r = -1 /\
  trace (snd r)
  = [ EvOpen "/dev/ttyUSB9" open_flags (-1);
      EvPerror ("Failed to open serial device: No such file or directory" ++ LF)%string ] /\
  filter is_line_control (trace (snd r)) = [] /\
  world (snd r) = 6.
Proof.
  assert (List.length (@nil string) <= 1)%nat as Hrest by (cbn; lia).
  assert (fst (sys_open linux_tty "/dev/ttyUSB9" open_flags 6) < 0) as Hfd
    by (vm_compute; reflexivity).
  split; [exact Hrest|]. split; [exact Hfd|].
  exact (open_failure_stops_the_run Z linux_tty "esp32s3_reset" "/dev/ttyUSB9" []
           0 6 Hrest Hfd).
Defined.

(** C5 as the claim has it fails in step 1: entering bootloader mode on a
    port whose DTR line is asserted and whose RTS line is not, the word
    written differs from the word read in both lines. *)
Lemma step1_changes_two_lines :
  let tr := trace (snd (main linux_tty
                          ["esp32s3_reset"; "/dev/ttyCH343USB0"; "bootloader"]
                          0 (boot 2))) in
  mutations None tr = [(ReadGot 2, 4); (ReadGot 4, 6); (ReadGot 6, 4)] /\
  lines linux_tty 2 = (true, false) /\
  lines linux_tty 4 = (false, true).
Proof. vm_compute. repeat split. Qed.

(** C5, amended, on the serial port. *)
Lemma read_modify_write_on_linux_tty :
  separate_lines linux_tty /\
  (List.length ["bootloader"] <= 1)%nat /\
  0 <= fst (sys_open linux_tty "/dev/ttyCH343USB0" open_flags 2) /\
  exists f1 f2 f3 w1 w2 w3,
    mutations None
      (trace (snd (main linux_tty
                     ("esp32s3_reset" :: "/dev/ttyCH343USB0" :: ["bootloader"])
                     0 (boot 2))))
    = [(f1, w1); (f2, w2); (f3, w3)] /\
    (f1 <> NoRead /\ f2 <> NoRead /\ f3 <> NoRead) /\
    (forall v, f1 = ReadGot v ->
       same_outside (Z.lor (TIOCM_DTR linux_tty) (TIOCM_RTS linux_tty)) w1 v) /\
    (forall v, f2 = ReadGot v ->
       same_outside (TIOCM_DTR linux_tty) w2 v /\
       line_on (TIOCM_RTS linux_tty) w2 = line_on (TIOCM_RTS linux_tty) v) /\
    (forall v, f3 = ReadGot v ->
       same_outside (TIOCM_DTR linux_tty) w3 v /\
       line_on (TIOCM_RTS linux_tty) w3 = line_on (TIOCM_RTS linux_tty) v).
Proof.
  assert (List.length ["bootloader"] <= 1)%nat as Hrest by (cbn; lia).
  assert (0 <= fst (sys_open linux_tty "/dev/ttyCH343USB0" open_flags 2)) as Hfd
    by (vm_compute; discriminate).
  split; [exact linux_tty_separate_lines|]. split; [exact Hrest|].
  split; [exact Hfd|].
  exact (mutations_are_read_modify_write Z linux_tty "esp32s3_reset"
           "/dev/ttyCH343USB0" ["bootloader"] 0 2
           linux_tty_separate_lines Hrest Hfd).
Defined.

(** C6 as the claim has it fails: without contention the third line write
    returns 150 ms after the first, not 350 ms; the 200 ms suspension
    comes after the third write. *)
Lemma third_write_comes_150ms_after_first :
  let tr := trace (snd (main linux_tty ["esp32s3_reset"; "/dev/ttyCH343USB0"]
                          0 (boot 6))) in
  write_times no_contention 0 tr = [0; 50000; 150000] /\
  150000 - 0 < 350000 /\
  end_time no_contention 0 tr = 350000.
Proof. vm_compute. repeat split. Qed.

(** C6, amended, on the serial port without contention. *)
Lemma sleeps_and_elapsed_time_on_linux_tty :
  (List.length (@nil string) <= 1)%nat /\
  0 <= fst (sys_open linux_tty "/dev/ttyCH343USB0" open_flags 6) /\
  sound_clock no_contention /\
  let tr := trace (snd (main linux_tty
                          ("esp32s3_reset" :: "/dev/ttyCH343USB0" :: [])
                          0 (boot 6))) in
  suspensions 0 false tr
  = [(Some 1%nat, 50000); (Some 2%nat, 100000); (Some 3%nat, 200000)] /\
  exists at1 at2 at3,
    write_times no_contention 0 tr = [at1; at2; at3] /\
    150000 <= at3 - at1 /\
    350000 <= end_time no_contention 0 tr - at1.
Proof.
  assert (List.length (@nil string) <= 1)%nat as Hrest by (cbn; lia).
  assert (0 <= fst (sys_open linux_tty "/dev/ttyCH343USB0" open_flags 6)) as Hfd
    by (vm_compute; discriminate).
  split; [exact Hrest|]. split; [exact Hfd|].
  split; [exact no_contention_sound|].
  exact (sleeps_and_elapsed_time Z linux_tty "esp32s3_reset" "/dev/ttyCH343USB0"
           [] 0 6 no_contention Hrest Hfd no_contention_sound).
Defined.

(** C8 on the host whose six line-control calls all fail. *)
Lemma all_line_control_calls_fail_on_linux_file :
  (List.length ["bootloader"] <= 1)%nat /\
  0 <= fst (sys_open linux_file "notes.txt" open_flags 0) /\
  map (fun e => match e with
                | EvIoctlGet _ got => got
                | _ => None
                end)
      (filter is_line_control
         (trace (snd (main linux_file ("esp32s3_reset" :: "notes.txt" :: ["bootloader"])
                        0 (boot 0)))))
  = [None; None; None; None; None; None] /\
  let r := main linux_file ("esp32s3_reset" :: "notes.txt" :: ["bootloader"])
             0 (boot 0) in
  fst r = 0 /\
  map call_of (trace (snd r))
  = [ CallOpen "notes.txt"; CallPrintf;
      CallPrintf; CallGet 3; CallSet 3; CallUsleep 50000;
      CallPrintf; CallGet 3; CallSet 3; CallUsleep 100000;
      CallPrintf; CallGet 3; CallSet 3; CallUsleep 200000;
      CallPrintf; CallPrintf; CallClose 3 ].
Proof.
  assert (List.length ["bootloader"] <= 1)%nat as Hrest by (cbn; lia).
  assert (0 <= fst (sys_open linux_file "notes.txt" open_flags 0)) as Hfd
    by (vm_compute; discriminate).
  split; [exact Hrest|]. split; [exact Hfd|].
  split; [vm_compute; reflexivity|].
  exact (line_control_results_are_ignored Z linux_file "esp32s3_reset" "notes.txt"
           ["bootloader"] 0 0 Hrest Hfd).
Defined.

(** C10 with the second argument flash. *)
Lemma second_argument_flash_is_normal_mode :
  c_string "flash" /\
  "flash" <> "bootloader" /\
  main linux_tty ["esp32s3_reset"; "/dev/ttyCH343USB0"; "flash"] 0 (boot 6)
  = main linux_tty ["esp32s3_reset"; "/dev/ttyCH343USB0"] 0 (boot 6) /\
  exists fd tr,
    trace (snd (main linux_tty ["esp32s3_reset"; "/dev/ttyCH343USB0"; "flash"]
                  0 (boot 6)))
    = EvOpen "/dev/ttyCH343USB0" open_flags fd :: tr.
Proof.
  assert (c_string "flash") as Hc by (cbn; repeat split; discriminate).
  assert ("flash" <> "bootloader") as Hne by discriminate.
  split; [exact Hc|]. split; [exact Hne|].
  exact (other_second_argument_is_normal_mode Z linux_tty "esp32s3_reset"
           "/dev/ttyCH343USB0" "flash" 0 6 Hc Hne).
Defined.

(** X1 on the serial port, in bootloader mode. *)
Lemma progress_output_on_linux_tty :
  (List.length ["bootloader"] <= 1)%nat /\
  0 <= fst (sys_open linux_tty "/dev/ttyCH343USB0" open_flags 2) /\
  let tr := trace (snd (main linux_tty
                          ("esp32s3_reset" :: "/dev/ttyCH343USB0" :: ["bootloader"])
                          0 (boot 2))) in
  stdout_of tr
  = progress_lines
      (wants_bootloader ("esp32s3_reset" :: "/dev/ttyCH343USB0" :: ["bootloader"])) /\
  stderr_of tr = [].
Proof.
  assert (List.length ["bootloader"] <= 1)%nat as Hrest by (cbn; lia).
  assert (0 <= fst (sys_open linux_tty "/dev/ttyCH343USB0" open_flags 2)) as Hfd
    by (vm_compute; discriminate).
  split; [exact Hrest|]. split; [exact Hfd|].
  exact (progress_output Z linux_tty "esp32s3_reset" "/dev/ttyCH343USB0"
           ["bootloader"] 0 2 Hrest Hfd).
Defined.

(** X3 on the host whose reads and writes all fail. *)
Lemma reset_pulse_on_linux_file :
  separate_lines linux_file /\
  (List.length ["bootloader"] <= 1)%nat /\
  0 <= fst (sys_open linux_file "notes.txt" open_flags 0) /\
  exists w1 w2 w3,
    words_written
      (trace (snd (main linux_file ("esp32s3_reset" :: "notes.txt" :: ["bootloader"])
                     12345 (boot 0))))
    = [w1; w2; w3] /\
    lines linux_file w1
    = (false, wants_bootloader ("esp32s3_reset" :: "notes.txt" :: ["bootloader"])) /\
    line_on (TIOCM_DTR linux_file) w2 = true /\
    line_on (TIOCM_DTR linux_file) w3 = false.
Proof.
  assert (separate_lines linux_file) as Hsep
    by (unfold separate_lines; cbn; repeat split; discriminate).
  assert (List.length ["bootloader"] <= 1)%nat as Hrest by (cbn; lia).
  assert (0 <= fst (sys_open linux_file "notes.txt" open_flags 0)) as Hfd
    by (vm_compute; discriminate).
  split; [exact Hsep|]. split; [exact Hrest|]. split; [exact Hfd|].
  exact (reset_pulse_whatever_is_read Z linux_file "esp32s3_reset" "notes.txt"
           ["bootloader"] 12345 0 Hsep Hrest Hfd).
Defined.

(** X4 on the host whose reads fail: [status] held 12345, and the first
    word written is 12345 with DTR cleared and RTS set. *)
Lemma stale_status_on_linux_file :
  (List.length ["bootloader"] <= 1)%nat /\
  0 <= fst (sys_open linux_file "notes.txt" open_flags 0) /\
  hd_error
    (reads_got
       (trace (snd (main linux_file ("esp32s3_reset" :: "notes.txt" :: ["bootloader"])
                      12345 (boot 0)))))
  = Some None /\
  hd_error
    (words_written
       (trace (snd (main linux_file ("esp32s3_reset" :: "notes.txt" :: ["bootloader"])
                      12345 (boot 0)))))
  = Some (step1_word linux_file
            (wants_bootloader ("esp32s3_reset" :: "notes.txt" :: ["bootloader"]))
            12345) /\
  step1_word linux_file true 12345 = 12349.
Proof.
  assert (List.length ["bootloader"] <= 1)%nat as Hrest by (cbn; lia).
  assert (0 <= fst (sys_open linux_file "notes.txt" open_flags 0)) as Hfd
    by (vm_compute; discriminate).
  assert (hd_error
            (reads_got
               (trace (snd (main linux_file
                              ("esp32s3_reset" :: "notes.txt" :: ["bootloader"])
                              12345 (boot 0)))))
          = Some None) as Hread by (vm_compute; reflexivity).
  split; [exact Hrest|]. split; [exact Hfd|]. split; [exact Hread|].
  split; [|vm_compute; reflexivity].
  exact (failed_first_read_writes_stale_status Z linux_file "esp32s3_reset"
           "notes.txt" ["bootloader"] 12345 0 Hrest Hfd Hread).
Defined.

(** X5 on the serial port, from a status word with other bits set. *)
Lemma third_write_restores_first_on_linux_tty :
  separate_lines linux_tty /\
  (List.length ["bootloader"] <= 1)%nat /\
  0 <= fst (sys_open linux_tty "/dev/ttyCH343USB0" open_flags 355) /\
  reads_return_last_write
    (trace (snd (main linux_tty
                   ("esp32s3_reset" :: "/dev/ttyCH343USB0" :: ["bootloader"])
                   0 (boot 355)))) /\
  exists w1,
    words_written
      (trace (snd (main linux_tty
                     ("esp32s3_reset" :: "/dev/ttyCH343USB0" :: ["bootloader"])
                     0 (boot 355))))
    = [w1; Z.lor w1 (TIOCM_DTR linux_tty); w1] /\
    (forall v,
       hd_error
         (reads_got
            (trace (snd (main linux_tty
                           ("esp32s3_reset" :: "/dev/ttyCH343USB0" :: ["bootloader"])
                           0 (boot 355)))))
       = Some (Some v) ->
       same_outside (Z.lor (TIOCM_DTR linux_tty) (TIOCM_RTS linux_tty)) w1 v).
Proof.
  assert (List.length ["bootloader"] <= 1)%nat as Hrest by (cbn; lia).
  assert (0 <= fst (sys_open linux_tty "/dev/ttyCH343USB0" open_flags 355)) as Hfd
    by (vm_compute; discriminate).
  assert (reads_return_last_write
            (trace (snd (main linux_tty
                           ("esp32s3_reset" :: "/dev/ttyCH343USB0" :: ["bootloader"])
                           0 (boot 355))))) as Hecho
    by (vm_compute; repeat split).
  split; [exact linux_tty_separate_lines|]. split; [exact Hrest|].
  split; [exact Hfd|]. split; [exact Hecho|].
  exact (third_write_restores_first Z linux_tty "esp32s3_reset" "/dev/ttyCH343USB0"
           ["bootloader"] 0 355 linux_tty_separate_lines Hrest Hfd Hecho).
Defined.

(** X6 for two names of the program. *)
Lemma program_name_is_irrelevant_on_linux_tty :
  (List.length ["bootloader"] <= 1)%nat /\
  main linux_tty ("esp32s3_reset" :: "/dev/ttyCH343USB0" :: ["bootloader"]) 0 (boot 2)
  = main linux_tty ("./reset" :: "/dev/ttyCH343USB0" :: ["bootloader"]) 0 (boot 2).
Proof.
  assert (List.length ["bootloader"] <= 1)%nat as Hrest by (cbn; lia).
  split; [exact Hrest|].
  exact (program_name_is_irrelevant Z linux_tty "esp32s3_reset" "./reset"
           "/dev/ttyCH343USB0" ["bootloader"] 0 2 Hrest).
Defined.

(** X7 on the serial port, from the least [int]. *)
Lemma written_words_are_ints_on_linux_tty :
  0 <= TIOCM_DTR linux_tty <= INT_MAX /\
  0 <= TIOCM_RTS linux_tty <= INT_MAX /\
  in_int 0 /\
  (List.length ["bootloader"] <= 1)%nat /\
  0 <= fst (sys_open linux_tty "/dev/ttyCH343USB0" open_flags INT_MIN) /\
  reads_are_ints
    (trace (snd (main linux_tty
                   ("esp32s3_reset" :: "/dev/ttyCH343USB0" :: ["bootloader"])
                   0 (boot INT_MIN)))) /\
  Forall in_int
    (words_written
       (trace (snd (main linux_tty
                      ("esp32s3_reset" :: "/dev/ttyCH343USB0" :: ["bootloader"])
                      0 (boot INT_MIN))))).
Proof.
  assert (0 <= TIOCM_DTR linux_tty <= INT_MAX) as Hd
    by (vm_compute; split; discriminate).
  assert (0 <= TIOCM_RTS linux_tty <= INT_MAX) as Hr
    by (vm_compute; split; discriminate).
  assert (in_int 0) as Hs by (vm_compute; split; discriminate).
  assert (List.length ["bootloader"] <= 1)%nat as Hrest by (cbn; lia).
  assert (0 <= fst (sys_open linux_tty "/dev/ttyCH343USB0" open_flags INT_MIN)) as Hfd
    by (vm_compute; discriminate).
  assert (reads_are_ints
            (trace (snd (main linux_tty
                           ("esp32s3_reset" :: "/dev/ttyCH343USB0" :: ["bootloader"])
                           0 (boot INT_MIN))))) as Hints
    by (vm_compute; repeat split; discriminate).
  split; [exact Hd|]. split; [exact Hr|]. split; [exact Hs|].
  split; [exact Hrest|]. split; [exact Hfd|]. split; [exact Hints|].
  exact (written_words_are_ints Z linux_tty "esp32s3_reset" "/dev/ttyCH343USB0"
           ["bootloader"] 0 INT_MIN Hd Hr Hs Hrest Hfd Hints).
Defined.

